(** * simple_gui.py: the project-creation window

    A shallow embedding of [GUI_test/simple_gui.py].  The script builds a Tk
    window with two entries and a button; the button's command,
    [create_project], reads both entries and hands the two strings to
    [sglm.utils.create_new_project].

    The script is straight-line Python, so it is embedded as a program over
    the operations it performs (global loads and stores, Tk calls, the call
    into [sglm.utils]); the operations are then given a meaning on an
    explicit interpreter state.  The toolkit and [sglm.utils] are not part of
    the script: the first is modelled as far as the script uses it, the second
    is a parameter. *)

From stdpp Require Import base option list strings pretty gmap.

Local Open Scope list_scope.

(** ** Python values and outcomes *)

(** The modules the script imports. *)
Inductive module_name :=
  | M_os | M_tkinter | M_tkinter_filedialog | M_sglm_utils | M_sglm_glm_fit.

(** The functions the script defines with [def]. *)
Inductive fname := Fcreate_project.

(** Values that the script's variables hold.  A widget is a handle into the
    interpreter's widget table. *)
Inductive value :=
  | VNone
  | VStr (s : string)
  | VWidget (w : nat)
  | VModule (m : module_name)
  | VFun (f : fname).

(** Exceptions.  [SystemExit] is what [sys.exit] raises, with the exit status
    of the process; it is no subclass of [Exception] and Tk lets it through.
    [OtherError] is an exception of any other class. *)
Inductive exn :=
  | NameError (name : string)
  | AttributeError (attr : string)
  | TclError (msg : string)
  | SystemExit (status : nat)
  | OtherError (cls msg : string).

(** A statement or call either returns a value or raises. *)
Inductive result (A : Type) :=
  | Return (a : A)
  | Raise (e : exn).
Arguments Return {A} a.
Arguments Raise {A} e.

#[global] Instance module_name_eq_dec : EqDecision module_name.
Proof. solve_decision. Defined.
#[global] Instance fname_eq_dec : EqDecision fname.
Proof. solve_decision. Defined.
#[global] Instance value_eq_dec : EqDecision value.
Proof. solve_decision. Defined.
(** ** Operations and programs *)

(** What one step of a script can do.  [Tk_destroy] is what closes a window;
    this script has no such call. *)
Inductive op : Type -> Type :=
  | LoadGlobal (x : string) : op value
  | StoreGlobal (x : string) (v : value) : op unit
  | Tk_Tk : op value
  | Tk_title (w : value) (s : string) : op unit
  | Tk_geometry (w : value) (s : string) : op unit
  | Tk_Entry (master : value) : op value
  | Tk_Label (master : value) (text : string) : op value
  | Tk_Button (master : value) (text : string) (command : value) : op value
  | Tk_pack (w : value) : op unit
  | Tk_destroy (w : value) : op unit
  | Entry_get (w : value) : op string
  | Utils_create_new_project (u : value) (name dir : string) : op value.

(** A program performs operations one after the other; the rest of the
    program may depend on what an operation returned. *)
Inductive prog (R : Type) : Type :=
  | Ret (r : R)
  | Vis {X : Type} (o : op X) (k : X -> prog R).
Arguments Ret {R} r.
Arguments Vis {R X} o k.

Fixpoint bind {A B : Type} (f : A -> prog B) (p : prog A) : prog B :=
  match p with
  | Ret a => f a
  | Vis o k => Vis o (fun x => bind f (k x))
  end.

#[global] Instance prog_ret : MRet prog := @Ret.
#[global] Instance prog_bind : MBind prog := @bind.

Definition perform {X : Type} (o : op X) : prog X := Vis o Ret.

(** [x = e]: evaluate [e], bind the module-level name [x]. *)
Definition assign (x : string) (e : prog value) : prog unit :=
  v ← e; perform (StoreGlobal x v).

(** [import m as x] and [from p import m]. *)
Definition import (x : string) (m : module_name) : prog unit :=
  perform (StoreGlobal x (VModule m)).

(** [x.get()] for a global [x]. *)
Definition entry_get (x : string) : prog string :=
  w ← perform (LoadGlobal x); perform (Entry_get w).

(** [x.pack()] for a global [x]. *)
Definition pack (x : string) : prog unit :=
  w ← perform (LoadGlobal x); perform (Tk_pack w).

(** [utils.create_new_project(name, dir)]. *)
Definition utils_create_new_project (name dir : string) : prog value :=
  u ← perform (LoadGlobal "utils");
  perform (Utils_create_new_project u name dir).

(** ** The script *)

(** Lines 6-9.  [project_name] and [project_dir] are assigned in the body, so
    they are locals of the function; the two entries and [utils] are looked up
    in the module's globals when the function runs.  The function has no
    [return], so it returns [None]. *)
Definition create_project : prog value :=
  project_name ← entry_get "project_name_entry";
  project_dir ← entry_get "project_dir_entry";
  _ ← utils_create_new_project project_name project_dir;
  Ret VNone.

Definition fbody (f : fname) : prog value :=
  match f with
  | Fcreate_project => create_project
  end.

(** Lines 1-34: everything before [root.mainloop()]. *)
Definition main_script : prog unit :=
  import "os" M_os;;
  import "tk" M_tkinter;;
  import "filedialog" M_tkinter_filedialog;;
  import "utils" M_sglm_utils;;
  import "glm_fit" M_sglm_glm_fit;;
  perform (StoreGlobal "create_project" (VFun Fcreate_project));;
  assign "root" (perform Tk_Tk);;
  (root ← perform (LoadGlobal "root"); perform (Tk_title root "Simple GLM GUI"));;
  (root ← perform (LoadGlobal "root"); perform (Tk_geometry root "750x270"));;
  assign "project_name_entry"
    (root ← perform (LoadGlobal "root"); perform (Tk_Entry root));;
  pack "project_name_entry";;
  assign "project_name_title"
    (root ← perform (LoadGlobal "root");
     perform (Tk_Label root "Choose a project name"));;
  pack "project_name_title";;
  assign "project_dir_entry"
    (root ← perform (LoadGlobal "root"); perform (Tk_Entry root));;
  pack "project_dir_entry";;
  assign "project_dir_title"
    (root ← perform (LoadGlobal "root");
     perform (Tk_Label root "Choose a project directory"));;
  pack "project_dir_title";;
  assign "project_name" (s ← entry_get "project_name_entry"; Ret (VStr s));;
  assign "project_dir" (s ← entry_get "project_dir_entry"; Ret (VStr s));;
  assign "create_project_button"
    (root ← perform (LoadGlobal "root");
     command ← perform (LoadGlobal "create_project");
     perform (Tk_Button root "Create a project" command));;
  pack "create_project_button".

(** The same script with lines 29 and 30 (the two module-level reads)
    deleted. *)
Definition main_script_without_reads : prog unit :=
  import "os" M_os;;
  import "tk" M_tkinter;;
  import "filedialog" M_tkinter_filedialog;;
  import "utils" M_sglm_utils;;
  import "glm_fit" M_sglm_glm_fit;;
  perform (StoreGlobal "create_project" (VFun Fcreate_project));;
  assign "root" (perform Tk_Tk);;
  (root ← perform (LoadGlobal "root"); perform (Tk_title root "Simple GLM GUI"));;
  (root ← perform (LoadGlobal "root"); perform (Tk_geometry root "750x270"));;
  assign "project_name_entry"
    (root ← perform (LoadGlobal "root"); perform (Tk_Entry root));;
  pack "project_name_entry";;
  assign "project_name_title"
    (root ← perform (LoadGlobal "root");
     perform (Tk_Label root "Choose a project name"));;
  pack "project_name_title";;
  assign "project_dir_entry"
    (root ← perform (LoadGlobal "root"); perform (Tk_Entry root));;
  pack "project_dir_entry";;
  assign "project_dir_title"
    (root ← perform (LoadGlobal "root");
     perform (Tk_Label root "Choose a project directory"));;
  pack "project_dir_title";;
  assign "create_project_button"
    (root ← perform (LoadGlobal "root");
     command ← perform (LoadGlobal "create_project");
     perform (Tk_Button root "Create a project" command));;
  pack "create_project_button".

(** ** Interpreter state *)

Inductive kind := Root | Entry | Label | Button.

#[global] Instance kind_eq_dec : EqDecision kind.
Proof. solve_decision. Defined.

(** One row of the widget table.  [w_text] is the title of a window, the
    contents of an entry, the text of a label or of a button. *)
Record widget := Widget {
  w_kind : kind;
  w_master : option nat;
  w_text : string;
  w_geometry : string;
  w_command : option value;
  w_packed : bool;
  w_alive : bool
}.

(** What the outside can see of a run: reads of an entry and calls of
    [create_new_project], oldest first. *)
Inductive event :=
  | EvGet (w : nat)
  | EvCall (name dir : string).

(** [W] is whatever [sglm.utils] acts on (the file system). [reported] holds
    the exceptions Tk printed for a callback.  [exit_status] is set once the
    process has ended through [SystemExit]. *)
Record state (W : Type) := State {
  globals : gmap string value;
  widgets : list widget;
  trace : list event;
  reported : list exn;
  world : W;
  exit_status : option nat
}.
Arguments State {W} _ _ _ _ _ _.
Arguments globals {W} _.
Arguments widgets {W} _.
Arguments trace {W} _.
Arguments reported {W} _.
Arguments world {W} _.
Arguments exit_status {W} _.

Definition initial {W : Type} (w0 : W) : state W :=
  State ∅ [] [] [] w0 None.

Definition set_globals {W} (f : gmap string value -> gmap string value)
    (s : state W) : state W :=
  State (f (globals s)) (widgets s) (trace s) (reported s) (world s)
    (exit_status s).

Definition set_widgets {W} (f : list widget -> list widget)
    (s : state W) : state W :=
  State (globals s) (f (widgets s)) (trace s) (reported s) (world s)
    (exit_status s).

Definition log {W} (ev : event) (s : state W) : state W :=
  State (globals s) (widgets s) (trace s ++ [ev]) (reported s) (world s)
    (exit_status s).

Definition report {W} (e : exn) (s : state W) : state W :=
  State (globals s) (widgets s) (trace s) (reported s ++ [e]) (world s)
    (exit_status s).

Definition set_world {W} (w : W) (s : state W) : state W :=
  State (globals s) (widgets s) (trace s) (reported s) w (exit_status s).

Definition set_exit {W} (n : nat) (s : state W) : state W :=
  State (globals s) (widgets s) (trace s) (reported s) (world s) (Some n).

Definition set_text (t : string) (wd : widget) : widget :=
  Widget (w_kind wd) (w_master wd) t (w_geometry wd) (w_command wd)
    (w_packed wd) (w_alive wd).

Definition set_geometry (g : string) (wd : widget) : widget :=
  Widget (w_kind wd) (w_master wd) (w_text wd) g (w_command wd)
    (w_packed wd) (w_alive wd).

Definition set_packed (wd : widget) : widget :=
  Widget (w_kind wd) (w_master wd) (w_text wd) (w_geometry wd) (w_command wd)
    true (w_alive wd).

Definition destroy (wd : widget) : widget :=
  Widget (w_kind wd) (w_master wd) (w_text wd) (w_geometry wd) (w_command wd)
    (w_packed wd) false.

Definition calls (tr : list event) : list (string * string) :=
  omap (fun ev => match ev with
                  | EvCall a b => Some (a, b)
                  | EvGet _ => None
                  end) tr.

(** The window is open while the process lives and a root widget is alive. *)
Definition window_open {W} (s : state W) : bool :=
  match exit_status s with
  | None =>
      existsb (fun wd => bool_decide (w_kind wd = Root) && w_alive wd) (widgets s)
  | Some _ => false
  end.

(** ** Meaning of the operations *)

(** The name Tk gives a widget: [!] and the class in lower case, numbered
    from the second widget of that class under the same master on. *)
Definition kind_class (k : kind) : string :=
  match k with
  | Root => "tk"
  | Entry => "entry"
  | Label => "label"
  | Button => "button"
  end.

Definition widget_name (ws : list widget) (i : nat) : string :=
  match ws !! i with
  | Some wd =>
      let n := length (filter (fun wd' => w_kind wd' = w_kind wd
                                          /\ w_master wd' = w_master wd)
                         (take (S i) ws)) in
      "!" +:+ kind_class (w_kind wd) +:+ (if n =? 1 then "" else pretty n)
  | None => ""
  end.

(** The path of widget [i]: [.] for a root, the master's path and the name
    otherwise.  A master is older than its children, so [length ws] steps
    reach the root. *)
Fixpoint path_from (fuel : nat) (ws : list widget) (i : nat) : string :=
  match ws !! i, fuel with
  | Some wd, S fuel' =>
      match w_master wd with
      | Some m =>
          let p := path_from fuel' ws m in
          (if decide (p = ".") then "." else p +:+ ".") +:+ widget_name ws i
      | None => "."
      end
  | _, _ => "."
  end.

Definition widget_path (ws : list widget) (i : nat) : string :=
  path_from (length ws) ws i.

(** What Tcl answers for a widget that is gone. *)
Definition invalid_command (path : string) : exn :=
  TclError ("invalid command name "
            +:+ String (Ascii.ascii_of_nat 34) EmptyString
            +:+ path
            +:+ String (Ascii.ascii_of_nat 34) EmptyString).

(** The live widget behind a value, as a method call on it needs. [attr] is
    the method, for the error when the value is no widget.  The script calls
    these methods on widgets it has just made, so the error case is not met
    by it. *)
Definition live_widget {W} (attr : string) (v : value) (s : state W)
    : result (nat * widget) :=
  match v with
  | VWidget i =>
      match widgets s !! i with
      | Some wd =>
          if w_alive wd then Return (i, wd)
          else Raise (invalid_command (widget_path (widgets s) i))
      | None => Raise (invalid_command (widget_path (widgets s) i))
      end
  | _ => Raise (AttributeError attr)
  end.

(** [tk.Entry(master)], [tk.Label(master, ...)], [tk.Button(master, ...)]:
    a new row, its handle is its index. *)
Definition new_widget {W} (k : kind) (master : value) (text : string)
    (command : option value) (s : state W) : result value * state W :=
  match live_widget "tk" master s with
  | Return (i, _) =>
      (Return (VWidget (length (widgets s))),
       set_widgets (fun ws => ws ++ [Widget k (Some i) text "" command false true]) s)
  | Raise e => (Raise e, s)
  end.

Section Semantics.

(** [sglm.utils.create_new_project]: given the two strings it returns a
    value or raises, and changes the outside world. It is handed two
    strings and nothing of the window. *)
Context {W : Type}.
Variable create_new_project : string -> string -> W -> result value * W.

Definition do_op {X : Type} (o : op X) : state W -> result X * state W :=
  match o in op X return state W -> result X * state W with
  | LoadGlobal x => fun s =>
      match globals s !! x with
      | Some v => (Return v, s)
      | None => (Raise (NameError x), s)
      end
  | StoreGlobal x v => fun s =>
      (Return (), set_globals (insert x v) s)
  | Tk_Tk => fun s =>
      (Return (VWidget (length (widgets s))),
       set_widgets (fun ws => ws ++ [Widget Root None "tk" "" None false true]) s)
  | Tk_title w t => fun s =>
      match live_widget "title" w s with
      | Return (i, wd) =>
          match w_kind wd with
          | Root => (Return (), set_widgets (insert i (set_text t wd)) s)
          | _ => (Raise (AttributeError "title"), s)
          end
      | Raise e => (Raise e, s)
      end
  | Tk_geometry w g => fun s =>
      match live_widget "geometry" w s with
      | Return (i, wd) =>
          match w_kind wd with
          | Root => (Return (), set_widgets (insert i (set_geometry g wd)) s)
          | _ => (Raise (AttributeError "geometry"), s)
          end
      | Raise e => (Raise e, s)
      end
  | Tk_Entry master => new_widget Entry master "" None
  | Tk_Label master text => new_widget Label master text None
  | Tk_Button master text command => new_widget Button master text (Some command)
  | Tk_pack w => fun s =>
      match live_widget "pack" w s with
      | Return (i, wd) =>
          match w_kind wd with
          | Root => (Raise (AttributeError "pack"), s)
          | _ => (Return (), set_widgets (insert i (set_packed wd)) s)
          end
      | Raise e => (Raise e, s)
      end
  | Tk_destroy w => fun s =>
      match w with
      | VWidget i =>
          match widgets s !! i with
          | Some wd =>
              match w_kind wd with
              | Root => (Return (), set_widgets (fmap destroy) s)
              | _ => (Return (), set_widgets (alter destroy i) s)
              end
          | None => (Return (), s)
          end
      | _ => (Raise (AttributeError "destroy"), s)
      end
  | Entry_get w => fun s =>
      match w with
      | VWidget i =>
          match widgets s !! i with
          | Some wd =>
              match w_kind wd with
              | Entry =>
                  if w_alive wd then (Return (w_text wd), log (EvGet i) s)
                  else (Raise (invalid_command (widget_path (widgets s) i)),
                        log (EvGet i) s)
              | _ => (Raise (AttributeError "get"), s)
              end
          | None => (Raise (invalid_command (widget_path (widgets s) i)), s)
          end
      | _ => (Raise (AttributeError "get"), s)
      end
  | Utils_create_new_project u name dir => fun s =>
      match u with
      | VModule M_sglm_utils =>
          let '(r, w') := create_new_project name dir (world s) in
          (r, set_world w' (log (EvCall name dir) s))
      | _ => (Raise (AttributeError "create_new_project"), s)
      end
  end.

(** Run a program: an operation that raises ends it, nothing in the script
    catches. *)
Fixpoint exec {R : Type} (p : prog R) (s : state W) : result R * state W :=
  match p with
  | Ret r => (Return r, s)
  | Vis o k =>
      match do_op o s with
      | (Return x, s') => exec (k x) s'
      | (Raise e, s') => (Raise e, s')
      end
  end.

(** ** The main loop *)

(** What the user does to the window. *)
Inductive user_event :=
  | UType (w : nat) (t : string)
  | UClick (w : nat)
  | UClose.

(** Tk calls a button's command.  An exception the command raises is printed
    and the loop carries on; [SystemExit] alone is passed on, which ends the
    main loop and the process with that status, nothing printed. *)
Definition invoke (f : fname) (s : state W) : state W :=
  match exec (fbody f) s with
  | (Return _, s') => s'
  | (Raise (SystemExit n), s') => set_exit n s'
  | (Raise e, s') => report e s'
  end.

Definition dispatch (ev : user_event) (s : state W) : state W :=
  match ev with
  | UType i t =>
      match widgets s !! i with
      | Some wd =>
          match w_kind wd with
          | Entry =>
              if w_alive wd then set_widgets (insert i (set_text t wd)) s else s
          | _ => s
          end
      | None => s
      end
  | UClick i =>
      match widgets s !! i with
      | Some wd =>
          match w_kind wd, w_command wd with
          | Button, Some (VFun f) => if w_alive wd then invoke f s else s
          | _, _ => s
          end
      | None => s
      end
  | UClose => set_widgets (fmap destroy) s
  end.

(** [root.mainloop()]: serve events until the window is gone or the process
    has ended. *)
Fixpoint mainloop (evs : list user_event) (s : state W) : state W :=
  match evs with
  | [] => s
  | ev :: evs' => if window_open s then mainloop evs' (dispatch ev s) else s
  end.

(** The whole file: lines 1-34, then line 36. *)
Definition run (script : prog unit) (evs : list user_event) (w0 : W) : state W :=
  match exec script (initial w0) with
  | (Return _, s) => mainloop evs s
  | (Raise _, s) => s
  end.

(** What one click adds to the trace. *)
Definition activation_events (i : nat) (s : state W) : list event :=
  drop (length (trace s)) (trace (dispatch (UClick i) s)).

Definition activation_calls (i : nat) (s : state W) : list (string * string) :=
  calls (activation_events i s).

(** The states in which the main loop serves an event: the script has run
    and the window is still open. *)
Inductive running : state W -> Prop :=
  | running_start w0 s :
      exec main_script (initial w0) = (Return (), s) -> running s
  | running_step ev s :
      running s -> window_open (dispatch ev s) = true ->
      running (dispatch ev s).

End Semantics.

(** ** What the handler may touch *)

(** [reads_only N p]: [p] loads no global outside [N], and besides that only
    reads entries and calls [create_new_project]. *)
Inductive reads_only (N : list string) {R : Type} : prog R -> Prop :=
  | reads_ret r : reads_only N (Ret r)
  | reads_load x k :
      x ∈ N -> (forall v, reads_only N (k v)) ->
      reads_only N (Vis (LoadGlobal x) k)
  | reads_get w k :
      (forall t, reads_only N (k t)) -> reads_only N (Vis (Entry_get w) k)
  | reads_call u a b k :
      (forall v, reads_only N (k v)) ->
      reads_only N (Vis (Utils_create_new_project u a b) k).

Definition handler_globals : list string :=
  ["project_name_entry"; "project_dir_entry"; "utils"].

(** ** The window the script builds *)

Definition root_widget : widget :=
  Widget Root None "Simple GLM GUI" "750x270" None false true.
Definition entry_widget (t : string) : widget :=
  Widget Entry (Some 0) t "" None true true.
Definition label_widget (t : string) : widget :=
  Widget Label (Some 0) t "" None true true.
Definition button_widget : widget :=
  Widget Button (Some 0) "Create a project" ""
    (Some (VFun Fcreate_project)) true true.

(** The widget table while the window is open, with [A] in the name entry
    and [B] in the directory entry. *)
Definition window (A B : string) : list widget :=
  [ root_widget;
    entry_widget A; label_widget "Choose a project name";
    entry_widget B; label_widget "Choose a project directory";
    button_widget ].

(** Entries and buttons take input; labels and the window frame do not. *)
Definition interactive (wd : widget) : bool :=
  match w_kind wd with
  | Entry | Button => true
  | Root | Label => false
  end.

(** The controls on screen. *)
Definition controls {W} (s : state W) : list widget :=
  List.filter (fun wd => interactive wd && w_packed wd && w_alive wd) (widgets s).

(** The text of the entry bound to the global [x]. *)
Definition field_text {W} (x : string) (s : state W) : option string :=
  match globals s !! x with
  | Some (VWidget i) =>
      match widgets s !! i with
      | Some wd => if bool_decide (w_kind wd = Entry) then Some (w_text wd) else None
      | None => None
      end
  | _ => None
  end.

(** What the handler relies on: its globals are bound as the script binds
    them and the window is the one the script built. *)
Record ready {W} (s : state W) : Prop := Ready {
  ready_name : globals s !! "project_name_entry" = Some (VWidget 1);
  ready_dir : globals s !! "project_dir_entry" = Some (VWidget 3);
  ready_utils : globals s !! "utils" = Some (VModule M_sglm_utils);
  ready_button : globals s !! "create_project_button" = Some (VWidget 5);
  ready_window : exists A B, widgets s = window A B;
  ready_alive : exit_status s = None
}.

(** Two outcomes of the collaborator that differ at most in the value
    returned. *)
Definition forget {W} (rw : result value * W) : option exn * W :=
  match rw with
  | (Return _, w) => (None, w)
  | (Raise e, w) => (Some e, w)
  end.

(** *** The script with and without its module-level reads *)

(** How a state of the script [s] and a state of the script without lines
    29-30 [s'] are related: the first has two more reads at the head of its
    trace and two more globals. *)
Record same_but_reads {W} (s s' : state W) : Prop := SameButReads {
  sbr_widgets : widgets s = widgets s';
  sbr_world : world s = world s';
  sbr_reported : reported s = reported s';
  sbr_trace : trace s = [EvGet 1; EvGet 3] ++ trace s';
  sbr_globals :
    globals s' = delete "project_dir" (delete "project_name" (globals s));
  sbr_exit : exit_status s = exit_status s'
}.

(** ** Runs on concrete collaborators *)

(** A collaborator that notes each request and returns [None]. *)
Definition noting (name dir : string) (w : list (string * string))
    : result value * list (string * string) :=
  (Return VNone, w ++ [(name, dir)]).

(** One that returns the path it made. *)
Definition returning_path (name dir : string) (w : list (string * string))
    : result value * list (string * string) :=
  (Return (VStr (String.append dir (String.append "/" name))), w ++ [(name, dir)]).

(** One that always refuses. *)
Definition refusing (name dir : string) (w : list (string * string))
    : result value * list (string * string) :=
  (Raise (OtherError "FileExistsError" name), w).

(** The window right after the script has run, and after the user has typed
    into both entries. *)
Definition fresh_window : state (list (string * string)) :=
  run noting main_script [] [].

Definition filled_window : state (list (string * string)) :=
  run noting main_script [UType 1 "MyProject"; UType 3 "/tmp/projects"] [].

(** The same contents reached another way, with an earlier click behind it. *)
Definition refilled_window : state (list (string * string)) :=
  run noting main_script
    [UType 1 "Draft"; UClick 5; UType 3 "/tmp/projects"; UType 1 "MyProject"]
    [("Old", "/srv")].

Definition refused_window : state (list (string * string)) :=
  run refusing main_script [UType 1 "MyProject"; UType 3 "/tmp/projects"] [].

(** One that notes the request and then calls [sys.exit(3)]. *)
Definition exiting (name dir : string) (w : list (string * string))
    : result value * list (string * string) :=
  (Raise (SystemExit 3), w ++ [(name, dir)]).

Definition exiting_window : state (list (string * string)) :=
  run exiting main_script [UType 1 "MyProject"; UType 3 "/tmp/projects"] [].

(** States no run reaches: one entry has been destroyed on its own. *)
Definition name_entry_gone : state (list (string * string)) :=
  set_widgets (alter destroy 1) filled_window.

Definition dir_entry_gone : state (list (string * string)) :=
  set_widgets (alter destroy 3) filled_window.

(** ** A run as the user sees it *)

(** The script's entries are widgets 1 and 3 and its button is widget 5; the
    three functions below follow a list of user events with nothing but the
    two texts in hand. *)

Definition is_close (ev : user_event) : bool :=
  match ev with
  | UClose => true
  | _ => false
  end.

(** Whether one of the events closes the window. *)
Definition closes (evs : list user_event) : bool := existsb is_close evs.

(** The texts of the name and the directory entry after the events, from [A]
    and [B]: what was last typed into each before the window was closed. *)
Fixpoint typed (A B : string) (evs : list user_event) : string * string :=
  match evs with
  | [] => (A, B)
  | UType i t :: evs' =>
      typed (if i =? 1 then t else A) (if i =? 3 then t else B) evs'
  | UClick _ :: evs' => typed A B evs'
  | UClose :: _ => (A, B)
  end.

(** One request for each click on the button before the window is closed,
    with the texts the entries held at that click. *)
Fixpoint expected_calls (A B : string) (evs : list user_event)
    : list (string * string) :=
  match evs with
  | [] => []
  | UType i t :: evs' =>
      expected_calls (if i =? 1 then t else A) (if i =? 3 then t else B) evs'
  | UClick i :: evs' =>
      (if i =? 5 then [(A, B)] else []) ++ expected_calls A B evs'
  | UClose :: _ => []
  end.

(** The collaborator applied to a list of requests in order, up to the first
    one that raises [SystemExit]: the outside world it leaves, the exceptions
    it raised otherwise, added to [raised], and the exit status if it ended
    that way. *)
Fixpoint replay {W : Type} (cnp : string -> string -> W -> result value * W)
    (cs : list (string * string)) (w : W) (raised : list exn)
    : W * list exn * option nat :=
  match cs with
  | [] => (w, raised, None)
  | (a, b) :: cs' =>
      match cnp a b w with
      | (Return _, w') => replay cnp cs' w' raised
      | (Raise (SystemExit n), w') => (w', raised, Some n)
      | (Raise e, w') => replay cnp cs' w' (raised ++ [e])
      end
  end.

(** The events the main loop serves: all of them up to and with the first
    that ends it, a close or a click on the button whose call raises
    [SystemExit].  [A], [B] and [w] are the two texts and the outside world
    before the events. *)
Fixpoint served {W : Type} (cnp : string -> string -> W -> result value * W)
    (A B : string) (w : W) (evs : list user_event) : list user_event :=
  match evs with
  | [] => []
  | UType i t :: evs' =>
      UType i t
      :: served cnp (if i =? 1 then t else A) (if i =? 3 then t else B) w evs'
  | UClick i :: evs' =>
      if i =? 5
      then match cnp A B w with
           | (Raise (SystemExit _), _) => [UClick i]
           | (_, w') => UClick i :: served cnp A B w' evs'
           end
      else UClick i :: served cnp A B w evs'
  | UClose :: _ => [UClose]
  end.

(** States the script is in before line 18 and after a [del]: a global the
    handler needs is not bound. *)
Definition before_widgets : state (list (string * string)) := initial [].

Definition dir_entry_unbound : state (list (string * string)) :=
  set_globals (delete "project_dir_entry") filled_window.

Definition utils_unbound : state (list (string * string)) :=
  set_globals (delete "utils") filled_window.

Ltac which_statement :=
  intros [? | [(? & ? & ? & ?) | (? & ? & ? & ? & ? & ? & ?)]]; simplify_eq/=.

(** * Properties *)

Lemma create_project_reads_only : reads_only handler_globals create_project.
Proof.
  unfold create_project, entry_get, utils_create_new_project, handler_globals.
  cbn.
  repeat (first [ apply reads_load; [rewrite !elem_of_cons; tauto | intros ?]
                | apply reads_get; intros ?
                | apply reads_call; intros ?
                | apply reads_ret ]).
Qed.

Section Properties.

Context {W : Type}.
Variable create_new_project : string -> string -> W -> result value * W.

#[local] Abbreviation exec := (exec create_new_project).
#[local] Abbreviation dispatch := (dispatch create_new_project).
#[local] Abbreviation invoke := (invoke create_new_project).
#[local] Abbreviation mainloop := (mainloop create_new_project).
#[local] Abbreviation run := (run create_new_project).
#[local] Abbreviation activation_events := (activation_events create_new_project).
#[local] Abbreviation activation_calls := (activation_calls create_new_project).
#[local] Abbreviation running := (running create_new_project).

Lemma exec_bind {A B : Type} (p : prog A) (f : A -> prog B) (s : state W) :
  exec (p ≫= f) s =
  match exec p s with
  | (Return a, s') => exec (f a) s'
  | (Raise e, s') => (Raise e, s')
  end.
Proof.
  revert s. induction p as [a | X o k IH]; intros s; [reflexivity |].
  change (exec (Vis o k ≫= f) s) with
    (match do_op create_new_project o s with
     | (Return x, s') => exec (k x ≫= f) s'
     | (Raise e, s') => (Raise e, s')
     end).
  simpl. destruct (do_op create_new_project o s) as [[x | e] s']; [apply IH | reflexivity].
Qed.

(** A handler-like program sees of the state only the globals it loads,
    the widgets and the outside world; it leaves globals, widgets and
    reports alone and only appends to the trace. *)
Lemma reads_only_exec {R : Type} (N : list string) (p : prog R) :
  reads_only N p ->
  forall s s' : state W,
    (forall x, x ∈ N -> globals s !! x = globals s' !! x) ->
    widgets s = widgets s' -> world s = world s' ->
    exists r tr w',
      exec p s = (r, State (globals s) (widgets s) (trace s ++ tr) (reported s)
                       w' (exit_status s))
      /\ exec p s' = (r, State (globals s') (widgets s') (trace s' ++ tr)
                          (reported s') w' (exit_status s')).
Proof.
  induction 1 as [r | x k Hx _ IH | w k _ IH | u a b k _ IH];
    intros s s' Hg Hw Hwo.
  - exists (Return r), [], (world s). simpl. rewrite !app_nil_r.
    destruct s, s'; simplify_eq/=; done.
  - simpl. rewrite <- (Hg x Hx).
    destruct (globals s !! x) as [v |].
    + apply IH; done.
    + exists (Raise (NameError x)), [], (world s). rewrite !app_nil_r.
      destruct s, s'; simplify_eq/=; done.
  - simpl. destruct w as [| | i | |];
      try (exists (Raise (AttributeError "get")), [], (world s);
           rewrite !app_nil_r; destruct s, s'; simplify_eq/=; done).
    rewrite <- Hw. destruct (widgets s !! i) as [wd |].
    2: { exists (Raise (invalid_command (widget_path (widgets s) i))), [], (world s).
         rewrite !app_nil_r. destruct s, s'; simplify_eq/=; done. }
    destruct (w_kind wd);
      try (exists (Raise (AttributeError "get")), [], (world s);
           rewrite !app_nil_r; destruct s, s'; simplify_eq/=; done).
    destruct (w_alive wd).
    + destruct (IH (w_text wd) (log (EvGet i) s) (log (EvGet i) s'))
        as (r & tr & w' & E1 & E2); [done .. |].
      exists r, (EvGet i :: tr), w'. rewrite E1, E2. simpl.
      rewrite <- !app_assoc, ?Hw. done.
    + exists (Raise (invalid_command (widget_path (widgets s) i))), [EvGet i],
        (world s).
      destruct s, s'; simplify_eq/=; done.
  - simpl.
    destruct (decide (u = VModule M_sglm_utils)) as [-> | Hu].
    + rewrite <- Hwo.
      destruct (create_new_project a b (world s)) as [[v | e] w1].
      * destruct (IH v (set_world w1 (log (EvCall a b) s))
                       (set_world w1 (log (EvCall a b) s')))
          as (r & tr & w' & E1 & E2); [done .. |].
        exists r, (EvCall a b :: tr), w'. rewrite E1, E2. simpl.
        rewrite <- !app_assoc. done.
      * exists (Raise e), [EvCall a b], w1. done.
    + exists (Raise (AttributeError "create_new_project")), [], (world s).
      rewrite !app_nil_r.
      destruct u as [| | | [] |]; try congruence;
        destruct s, s'; simplify_eq/=; done.
Qed.

(** Running the handler leaves globals, widgets and reports as they were. *)
Lemma create_project_frame (s : state W) :
  exists r tr w',
    exec create_project s =
    (r, State (globals s) (widgets s) (trace s ++ tr) (reported s) w'
          (exit_status s)).
Proof.
  destruct (reads_only_exec _ _ create_project_reads_only s s)
    as (r & tr & w' & E & _); eauto.
Qed.

(** The handler in a state where the window holds [A] and [B]. *)
Lemma create_project_window (s : state W) (A B : string) :
  ready s -> widgets s = window A B ->
  exec create_project s =
  (match fst (create_new_project A B (world s)) with
   | Return _ => Return VNone
   | Raise e => Raise e
   end,
   State (globals s) (widgets s) (trace s ++ [EvGet 1; EvGet 3; EvCall A B])
     (reported s) (snd (create_new_project A B (world s))) (exit_status s)).
Proof.
  intros [Hn Hd Hu _ _ _] Hw.
  unfold create_project, entry_get, utils_create_new_project. simpl.
  rewrite Hn. simpl. rewrite Hw. simpl.
  rewrite Hd. simpl. rewrite Hw. simpl.
  rewrite Hu. simpl.
  destruct (create_new_project A B (world s)) as [[v | e] w1]; simpl;
    unfold set_world, log; simpl; rewrite <- !app_assoc, ?Hw; done.
Qed.

Lemma ready_field_text (s : state W) (A B : string) :
  ready s ->
  field_text "project_name_entry" s = Some A ->
  field_text "project_dir_entry" s = Some B ->
  widgets s = window A B.
Proof.
  intros [Hn Hd _ _ (A' & B' & Hw) _]. unfold field_text.
  rewrite Hn, Hd, Hw. simpl. congruence.
Qed.

(** A click on the button runs the handler once. *)
Lemma click_button (s : state W) :
  ready s -> dispatch (UClick 5) s = invoke Fcreate_project s.
Proof. intros [_ _ _ _ (A & B & Hw) _]. simpl. by rewrite Hw. Qed.

Lemma exec_main_script (w0 : W) :
  exec main_script (initial w0) =
  (Return (), snd (exec main_script (initial w0))).
Proof. vm_compute. reflexivity. Qed.

Lemma run_returned (script : prog unit) (evs : list user_event) (w0 : W)
    (s : state W) :
  exec script (initial w0) = (Return (), s) -> run script evs w0 = mainloop evs s.
Proof. unfold run. by intros ->. Qed.

Lemma ready_start (w0 : W) (s : state W) :
  exec main_script (initial w0) = (Return (), s) -> ready s.
Proof.
  intros E. vm_compute in E. injection E as <-.
  split; [reflexivity .. | by exists "", "" | reflexivity].
Qed.

Lemma ready_same_globals (s s' : state W) (A B : string) :
  ready s -> globals s' = globals s -> widgets s' = window A B ->
  exit_status s' = None -> ready s'.
Proof.
  intros [Hn Hd Hu Hb _ _] Hg Hw He. split; rewrite ?Hg; try done.
  by exists A, B.
Qed.

Lemma window_open_alive (s : state W) :
  window_open s = true -> exit_status s = None.
Proof. unfold window_open. by destruct (exit_status s). Qed.

(** What [invoke] does with the outcome of the handler. *)
Lemma invoke_create_project (s : state W) :
  exists r tr w',
    exec create_project s
    = (r, State (globals s) (widgets s) (trace s ++ tr) (reported s) w'
            (exit_status s))
    /\ invoke Fcreate_project s
       = match r with
         | Return _ =>
             State (globals s) (widgets s) (trace s ++ tr) (reported s) w'
               (exit_status s)
         | Raise (SystemExit n) =>
             State (globals s) (widgets s) (trace s ++ tr) (reported s) w'
               (Some n)
         | Raise e =>
             State (globals s) (widgets s) (trace s ++ tr) (reported s ++ [e]) w'
               (exit_status s)
         end.
Proof.
  destruct (create_project_frame s) as (r & tr & w' & E).
  exists r, tr, w'. split; [done |]. unfold invoke. simpl fbody. rewrite E.
  by destruct r as [v | []].
Qed.

(** A click changes neither the globals nor the widget table. *)
Lemma click_frame (s : state W) (i : nat) :
  globals (dispatch (UClick i) s) = globals s
  /\ widgets (dispatch (UClick i) s) = widgets s.
Proof.
  simpl. destruct (widgets s !! i) as [wd |]; [| done].
  destruct (w_kind wd); try done.
  destruct (w_command wd) as [[| | | | f] |]; try done.
  destruct (w_alive wd); [| done]. destruct f.
  destruct (invoke_create_project s) as (r & tr & w' & _ & ->).
  by destruct r as [v | []].
Qed.

Lemma ready_dispatch (ev : user_event) (s : state W) :
  ready s -> window_open (dispatch ev s) = true -> ready (dispatch ev s).
Proof.
  intros Hr Ho. pose proof (window_open_alive _ Ho) as He.
  destruct ev as [i t | i |].
  - destruct Hr as [Hn Hd Hu Hb (A & B & Hw) _]. revert He. simpl. rewrite Hw.
    destruct i as [| [| [| [| [| [| ]]]]]]; simpl; intros He;
      try (by split; eauto); split; try done; simpl; rewrite Hw.
    + by exists t, B.
    + by exists A, t.
  - destruct (click_frame s i) as [Hg Hw].
    destruct Hr as [Hn Hd Hu Hb (A & B & HAB) _].
    split; rewrite ?Hg, ?Hw; try done. by exists A, B.
  - destruct Hr as [_ _ _ _ (A & B & Hw) Hal].
    unfold window_open in Ho. simpl in Ho. rewrite Hal, Hw in Ho. done.
Qed.

Lemma running_ready (s : state W) : running s -> ready s.
Proof.
  induction 1 as [w0 s E | ev s _ IH Ho]; [by eapply ready_start |].
  by apply ready_dispatch.
Qed.

Lemma ready_open (s : state W) : ready s -> window_open s = true.
Proof.
  intros [_ _ _ _ (A & B & Hw) He]. unfold window_open. by rewrite He, Hw.
Qed.

(** The main loop only ever passes through running states. *)
Lemma running_mainloop (evs : list user_event) (s : state W) :
  running s -> window_open (mainloop evs s) = true -> running (mainloop evs s).
Proof.
  revert s. induction evs as [| ev evs IH]; intros s Hr Ho; [done |].
  simpl in *. rewrite (ready_open s (running_ready s Hr)) in *.
  destruct (window_open (dispatch ev s)) eqn:Hd.
  - apply IH; [by apply running_step | done].
  - destruct evs; simpl in *; rewrite ?Hd in *; congruence.
Qed.

Lemma running_run (evs : list user_event) (w0 : W) :
  window_open (run main_script evs w0) = true -> running (run main_script evs w0).
Proof.
  rewrite (run_returned main_script evs w0 _ (exec_main_script w0)).
  apply running_mainloop. eapply running_start, exec_main_script.
Qed.

(** What a click on the button does when the window holds [A] and [B]. *)
Lemma click_window (s : state W) (A B : string) (b : nat) :
  ready s -> widgets s = window A B ->
  globals s !! "create_project_button" = Some (VWidget b) ->
  dispatch (UClick b) s =
  let s' := State (globals s) (widgets s)
              (trace s ++ [EvGet 1; EvGet 3; EvCall A B]) (reported s)
              (snd (create_new_project A B (world s))) (exit_status s) in
  match fst (create_new_project A B (world s)) with
  | Return _ => s'
  | Raise (SystemExit n) => set_exit n s'
  | Raise e => report e s'
  end.
Proof.
  intros Hr Hw Hb. rewrite (ready_button s Hr) in Hb. injection Hb as <-.
  rewrite click_button by done. unfold invoke. simpl fbody.
  rewrite (create_project_window s A B) by done.
  by destruct (fst (create_new_project A B (world s))) as [v | []].
Qed.

Lemma activation_window (s : state W) (A B : string) (b : nat) :
  ready s -> widgets s = window A B ->
  globals s !! "create_project_button" = Some (VWidget b) ->
  activation_events b s = [EvGet 1; EvGet 3; EvCall A B].
Proof.
  intros Hr Hw Hb. unfold activation_events.
  rewrite (click_window s A B b) by done.
  destruct (fst (create_new_project A B (world s))) as [v | []]; simpl;
    by rewrite drop_app_length.
Qed.

(** C1. In every state the running program can be in, with [A] in the
    project-name entry and [B] in the project-directory entry, a click on the
    "Create a project" button makes exactly one call of [create_new_project],
    and its arguments are [A] then [B]. *)
Theorem click_calls_once (s : state W) (A B : string) (b : nat) :
  running s ->
  field_text "project_name_entry" s = Some A ->
  field_text "project_dir_entry" s = Some B ->
  globals s !! "create_project_button" = Some (VWidget b) ->
  activation_calls b s = [(A, B)].
Proof.
  intros Hrun HA HB Hb. apply running_ready in Hrun.
  unfold activation_calls.
  rewrite (activation_window s A B b); eauto using ready_field_text.
Qed.

(** C2. With both entries empty, a click on the button still calls
    [create_new_project], exactly once and with two empty strings; the outside
    world afterwards is the one that call left. *)
Theorem click_empty_fields (s : state W) (b : nat) :
  running s ->
  field_text "project_name_entry" s = Some "" ->
  field_text "project_dir_entry" s = Some "" ->
  globals s !! "create_project_button" = Some (VWidget b) ->
  activation_calls b s = [("", "")]
  /\ world (dispatch (UClick b) s) = snd (create_new_project "" "" (world s)).
Proof.
  intros Hrun HA HB Hb. apply running_ready in Hrun.
  assert (widgets s = window "" "") as Hw by eauto using ready_field_text.
  split.
  - unfold activation_calls. by rewrite (activation_window s "" "" b).
  - rewrite (click_window s "" "" b) by done.
    by destruct (fst (create_new_project "" "" (world s))) as [v | []].
Qed.

(** C10. In every activation that the running program performs, the trace
    of the click is: one read of the project-name entry, then one read of the
    project-directory entry (a different widget), then the call. *)
Theorem click_reads_then_calls (s : state W) (A B : string) (n d b : nat) :
  running s ->
  globals s !! "project_name_entry" = Some (VWidget n) ->
  globals s !! "project_dir_entry" = Some (VWidget d) ->
  globals s !! "create_project_button" = Some (VWidget b) ->
  field_text "project_name_entry" s = Some A ->
  field_text "project_dir_entry" s = Some B ->
  activation_events b s = [EvGet n; EvGet d; EvCall A B] /\ n <> d.
Proof.
  intros Hrun Hn Hd Hb HA HB. apply running_ready in Hrun.
  rewrite (ready_name s Hrun) in Hn. rewrite (ready_dir s Hrun) in Hd.
  injection Hn as <-. injection Hd as <-.
  split; [| lia]. apply activation_window; eauto using ready_field_text.
Qed.

(** C4. A click never changes the widget table, whether the creation call
    returns or raises: in any state and for any widget clicked, the widgets
    afterwards are the widgets before, and so is the text of both entries. *)
Theorem click_keeps_widgets (s : state W) (i : nat) :
  widgets (dispatch (UClick i) s) = widgets s
  /\ field_text "project_name_entry" (dispatch (UClick i) s)
     = field_text "project_name_entry" s
  /\ field_text "project_dir_entry" (dispatch (UClick i) s)
     = field_text "project_dir_entry" s
  /\ widgets (snd (exec create_project s)) = widgets s.
Proof.
  destruct (click_frame s i) as [Hg Hw].
  unfold field_text. rewrite Hg, Hw. split_and!; try done.
  by destruct (create_project_frame s) as (r & tr & w' & ->).
Qed.

(** A click on a widget that is not the button does nothing. *)
Lemma click_other (s : state W) (i : nat) :
  ready s -> i <> 5 -> dispatch (UClick i) s = s.
Proof.
  intros [_ _ _ _ (A & B & Hw) _] Hi. simpl. rewrite Hw.
  by destruct i as [| [| [| [| [| [| i]]]]]].
Qed.

(** C8, amended.  While the program runs, the window shows exactly three
    controls: the two entries and the button labelled "Create a project".
    The handler is made of global loads, entry reads and the creation call
    only, so it destroys nothing, and a click leaves the controls as they
    were.  A click leaves the window open and the program running whenever
    the creation call returns or raises anything but [SystemExit]; if it
    raises [SystemExit], the click on the button ends the program with that
    status and nothing is reported. *)
Theorem click_keeps_window_open (s : state W) (A B : string) (b i : nat) :
  running s ->
  field_text "project_name_entry" s = Some A ->
  field_text "project_dir_entry" s = Some B ->
  globals s !! "create_project_button" = Some (VWidget b) ->
  controls s = [entry_widget A; entry_widget B; button_widget]
  /\ w_text button_widget = "Create a project"
  /\ controls (dispatch (UClick i) s) = controls s
  /\ reads_only handler_globals create_project
  /\ ((forall n, fst (create_new_project A B (world s)) <> Raise (SystemExit n)) ->
      window_open (dispatch (UClick i) s) = true
      /\ running (dispatch (UClick i) s))
  /\ (forall n,
        fst (create_new_project A B (world s)) = Raise (SystemExit n) ->
        window_open (dispatch (UClick b) s) = false
        /\ exit_status (dispatch (UClick b) s) = Some n
        /\ reported (dispatch (UClick b) s) = reported s).
Proof.
  intros Hrun HA HB Hb. pose proof (running_ready s Hrun) as Hr.
  assert (widgets s = window A B) as Hwin by eauto using ready_field_text.
  destruct (click_frame s i) as [_ Hw].
  split_and!.
  - unfold controls. by rewrite Hwin.
  - done.
  - unfold controls. by rewrite Hw.
  - apply create_project_reads_only.
  - intros Hne.
    assert (window_open (dispatch (UClick i) s) = true) as Ho.
    { destruct (decide (i = 5)) as [-> | Hi].
      - rewrite (click_window s A B 5 Hr Hwin (ready_button s Hr)).
        destruct (fst (create_new_project A B (world s))) as [v | []];
          try (by destruct (Hne status));
          unfold window_open; simpl; by rewrite (ready_alive s Hr), Hwin.
      - rewrite (click_other s i Hr Hi). by apply ready_open. }
    split; [done | by apply running_step].
  - intros n Hn. rewrite (click_window s A B b Hr Hwin Hb), Hn.
    unfold window_open. done.
Qed.

Lemma calls_snoc_get (tr : list event) (i : nat) :
  calls (tr ++ [EvGet i]) = calls tr.
Proof. unfold calls. rewrite omap_app. simpl. by rewrite app_nil_r. Qed.

(** An entry read leaves the outside world alone and logs at most itself. *)
Lemma entry_get_effect (x : string) (s s1 : state W) (r : result string) :
  exec (entry_get x) s = (r, s1) ->
  world s1 = world s
  /\ (trace s1 = trace s \/ exists i, trace s1 = trace s ++ [EvGet i]).
Proof.
  unfold entry_get. simpl.
  destruct (globals s !! x) as [[| | i | |] |]; simpl;
    try (intros [= <- <-]; by auto).
  destruct (widgets s !! i) as [wd |]; [| intros [= <- <-]; by auto].
  destruct (w_kind wd); try (intros [= <- <-]; by auto).
  destruct (w_alive wd); intros [= <- <-]; simpl; eauto.
Qed.

(** C3. The handler raises exactly when one of its three statements does,
    and with that exception: the read of the name entry, else the read of the
    directory entry, else the creation call.  In the running program this
    means: it raises [e] exactly when [create_new_project] raises [e], and
    Tk is handed that same exception: it prints it and carries on, unless it
    is [SystemExit], which is not printed and ends the program. *)
Theorem handler_raises_iff (s : state W) (e : exn) :
  (fst (exec create_project s) = Raise e <->
     fst (exec (entry_get "project_name_entry") s) = Raise e
     \/ (exists A s1,
           exec (entry_get "project_name_entry") s = (Return A, s1)
           /\ fst (exec (entry_get "project_dir_entry") s1) = Raise e)
     \/ (exists A s1 B s2,
           exec (entry_get "project_name_entry") s = (Return A, s1)
           /\ exec (entry_get "project_dir_entry") s1 = (Return B, s2)
           /\ fst (exec (utils_create_new_project A B) s2) = Raise e))
  /\ (forall A B,
        running s ->
        field_text "project_name_entry" s = Some A ->
        field_text "project_dir_entry" s = Some B ->
        (fst (exec create_project s) = Raise e <->
           fst (create_new_project A B (world s)) = Raise e)
        /\ (fst (create_new_project A B (world s)) = Raise e ->
             match e with
             | SystemExit n =>
                 reported (invoke Fcreate_project s) = reported s
                 /\ exit_status (invoke Fcreate_project s) = Some n
             | _ => reported (invoke Fcreate_project s) = reported s ++ [e]
             end)).
Proof.
  split.
  - unfold create_project. rewrite exec_bind.
    destruct (exec (entry_get "project_name_entry") s) as [[A | e1] s1] eqn:E1;
      cbv beta iota.
    2: { cbn [fst]. split; [intros [= ->]; by left | which_statement; done]. }
    rewrite exec_bind.
    destruct (exec (entry_get "project_dir_entry") s1) as [[B | e2] s2] eqn:E2;
      cbv beta iota.
    2: { cbn [fst]. split; [| which_statement; try rewrite E2 in *; by simplify_eq/=].
         intros [= ->]. right; left. exists A, s1. by rewrite E2. }
    rewrite exec_bind.
    destruct (exec (utils_create_new_project A B) s2) as [[v | e3] s3] eqn:E3;
      cbv beta iota; cbn [fst exec].
    + split; [done |].
      which_statement; try rewrite E2 in *; simplify_eq/=;
        try rewrite E3 in *; by simplify_eq/=.
    + split.
      * intros [= ->]. right; right. exists A, s1, B, s2. by rewrite E3.
      * which_statement; try rewrite E2 in *; simplify_eq/=;
          try rewrite E3 in *; by simplify_eq/=.
  - intros A B Hrun HA HB. apply running_ready in Hrun.
    assert (widgets s = window A B) as Hw by eauto using ready_field_text.
    unfold invoke. simpl fbody. rewrite (create_project_window s A B) by done.
    simpl. destruct (fst (create_new_project A B (world s))) as [v | e'];
      simpl; split; try done.
    intros [= ->]. by destruct e.
Qed.

(** C9. A failed read ends the handler there.  If the read of the name
    entry raises, the handler raises the same and stops in the state that
    read left: at most that one read is logged, no call is made, the outside
    world is untouched.  If the name is read and the read of the directory
    entry raises, the handler raises the same, again without any call. *)
Theorem failed_read_stops_handler (s : state W) :
  (forall e s1,
     exec (entry_get "project_name_entry") s = (Raise e, s1) ->
     exec create_project s = (Raise e, s1)
     /\ (trace s1 = trace s \/ exists i, trace s1 = trace s ++ [EvGet i])
     /\ calls (trace s1) = calls (trace s)
     /\ world s1 = world s)
  /\ (forall A s1 e s2,
        exec (entry_get "project_name_entry") s = (Return A, s1) ->
        exec (entry_get "project_dir_entry") s1 = (Raise e, s2) ->
        exec create_project s = (Raise e, s2)
        /\ calls (trace s2) = calls (trace s)
        /\ world s2 = world s).
Proof.
  split.
  - intros e s1 E1. destruct (entry_get_effect _ _ _ _ E1) as [Hwo Htr].
    unfold create_project. rewrite exec_bind, E1. split_and!; try done.
    destruct Htr as [-> | [i ->]]; [done | apply calls_snoc_get].
  - intros A s1 e s2 E1 E2.
    destruct (entry_get_effect _ _ _ _ E1) as [Hwo1 Htr1].
    destruct (entry_get_effect _ _ _ _ E2) as [Hwo2 Htr2].
    unfold create_project. rewrite exec_bind, E1, exec_bind, E2.
    split_and!; [done | | congruence].
    destruct Htr1 as [Ht1 | [i Ht1]], Htr2 as [Ht2 | [j Ht2]];
      rewrite Ht2, Ht1, ?calls_snoc_get; done.
Qed.

Lemma exec_main_script_without_reads (w0 : W) :
  exec main_script_without_reads (initial w0) =
  (Return (), snd (exec main_script_without_reads (initial w0))).
Proof. vm_compute. reflexivity. Qed.

Lemma same_but_reads_start (w0 : W) :
  same_but_reads (snd (exec main_script (initial w0)))
                 (snd (exec main_script_without_reads (initial w0))).
Proof. constructor; vm_compute; reflexivity. Qed.

Lemma same_but_reads_handler_globals (s s' : state W) (x : string) :
  same_but_reads s s' -> x ∈ handler_globals ->
  globals s !! x = globals s' !! x.
Proof.
  intros [_ _ _ _ -> _] Hx. unfold handler_globals in Hx.
  rewrite !elem_of_cons, elem_of_nil in Hx.
  rewrite !lookup_delete_ne; [done | intros <-; intuition discriminate ..].
Qed.

Lemma same_but_reads_dispatch (ev : user_event) (s s' : state W) :
  same_but_reads s s' -> same_but_reads (dispatch ev s) (dispatch ev s').
Proof.
  intros Hs. pose proof Hs as [Hw Hwo Hrp Htr Hg He]. simpl in Htr.
  destruct ev as [i t | i |]; simpl; rewrite <- ?Hw.
  - destruct (widgets s !! i) as [wd |]; [| done].
    destruct (w_kind wd); try done.
    destruct (w_alive wd); [| done]. split; simpl; congruence.
  - destruct (widgets s !! i) as [wd |]; [| done].
    destruct (w_kind wd); try done.
    destruct (w_command wd) as [[| | | | f] |]; try done.
    destruct (w_alive wd); [| done]. destruct f. unfold invoke. simpl fbody.
    destruct (reads_only_exec _ _ create_project_reads_only s s')
      as (r & tr & w' & -> & ->);
      [intros x Hx; by apply same_but_reads_handler_globals | done .. |].
    destruct r as [v | []]; split; simpl; rewrite ?Htr; simpl; congruence.
  - split; simpl; congruence.
Qed.

Lemma same_but_reads_mainloop (evs : list user_event) (s s' : state W) :
  same_but_reads s s' -> same_but_reads (mainloop evs s) (mainloop evs s').
Proof.
  revert s s'. induction evs as [| ev evs IH]; intros s s' Hs; [done |].
  simpl. unfold window_open.
  rewrite <- (sbr_widgets s s' Hs), <- (sbr_exit s s' Hs).
  destruct (exit_status s); [done |].
  destruct (existsb _ (widgets s)); [| done].
  by apply IH, same_but_reads_dispatch.
Qed.

Lemma not_handler_global (x : string) :
  x = "project_name" \/ x = "project_dir" -> x ∉ handler_globals.
Proof.
  unfold handler_globals. rewrite !not_elem_of_cons, elem_of_nil.
  intros [-> | ->]; split_and!; try discriminate; tauto.
Qed.

Lemma handler_ignores_global (x : string) (v : value) (s : state W) :
  x ∉ handler_globals ->
  exec create_project (set_globals (insert x v) s) =
  (fst (exec create_project s),
   set_globals (insert x v) (snd (exec create_project s))).
Proof.
  intros Hx.
  destruct (reads_only_exec _ _ create_project_reads_only
              (set_globals (insert x v) s) s) as (r & tr & w' & -> & ->);
    [| done ..].
  intros y Hy. simpl. apply lookup_insert_ne. by intros ->.
Qed.

Lemma same_but_reads_run (evs : list user_event) (w0 : W) :
  same_but_reads (run main_script evs w0) (run main_script_without_reads evs w0).
Proof.
  pose proof (run_returned main_script evs w0 _ (exec_main_script w0)) as E.
  pose proof (run_returned main_script_without_reads evs w0 _
                (exec_main_script_without_reads w0)) as E'.
  pose proof (same_but_reads_mainloop evs _ _ (same_but_reads_start w0)) as H.
  congruence.
Qed.

Lemma same_but_reads_facts (s s' : state W) :
  same_but_reads s s' ->
  widgets s = widgets s'
  /\ world s = world s'
  /\ reported s = reported s'
  /\ calls (trace s) = calls (trace s')
  /\ trace s = [EvGet 1; EvGet 3] ++ trace s'
  /\ globals s' = delete "project_dir" (delete "project_name" (globals s))
  /\ exit_status s = exit_status s'.
Proof.
  intros [Hw Hwo Hrp Htr Hg He]. split_and!; try done. by rewrite Htr.
Qed.

(** C5. The two module-level reads are dead code.  For every sequence of
    user events the script and the script without lines 29-30 end with the
    same widgets, the same outside world, the same reported exceptions, the
    same calls of [create_new_project] and the same exit status, if the
    program ended; they differ only in the two reads
    logged at load time and in the two unused globals.  The handler itself does
    not depend on a global [project_name] or [project_dir], whatever it
    holds. *)
Theorem module_level_reads_are_dead (evs : list user_event) (w0 : W) :
  let s := run main_script evs w0 in
  let s' := run main_script_without_reads evs w0 in
  (widgets s = widgets s'
   /\ world s = world s'
   /\ reported s = reported s'
   /\ calls (trace s) = calls (trace s')
   /\ trace s = [EvGet 1; EvGet 3] ++ trace s'
   /\ globals s' = delete "project_dir" (delete "project_name" (globals s))
   /\ exit_status s = exit_status s')
  /\ (forall (st : state W) (v : value),
        exec create_project (set_globals (insert "project_name" v) st) =
        (fst (exec create_project st),
         set_globals (insert "project_name" v) (snd (exec create_project st))))
  /\ (forall (st : state W) (v : value),
        exec create_project (set_globals (insert "project_dir" v) st) =
        (fst (exec create_project st),
         set_globals (insert "project_dir" v) (snd (exec create_project st)))).
Proof.
  intros s s'. split; [| split].
  - apply same_but_reads_facts, same_but_reads_run.
  - intros st v. apply handler_ignores_global, not_handler_global. by left.
  - intros st v. apply handler_ignores_global, not_handler_global. by right.
Qed.

(** C6. What a click passes on is the text of the two entries and nothing
    else.  Two running states whose entries hold the same [A] and [B], however
    they were reached and whatever the outside world is, make the same single
    call [(A, B)], the strings as they stand; overwriting the module-level
    [project_name] and [project_dir] with anything does not change it. *)
Theorem same_fields_same_arguments
    (s1 s2 : state W) (A B : string) (b1 b2 : nat) (v1 v2 : value) :
  running s1 -> running s2 ->
  field_text "project_name_entry" s1 = Some A ->
  field_text "project_dir_entry" s1 = Some B ->
  field_text "project_name_entry" s2 = Some A ->
  field_text "project_dir_entry" s2 = Some B ->
  globals s1 !! "create_project_button" = Some (VWidget b1) ->
  globals s2 !! "create_project_button" = Some (VWidget b2) ->
  activation_calls b1 s1 = [(A, B)]
  /\ activation_calls b2 s2 = activation_calls b1 s1
  /\ activation_calls b1
       (set_globals (insert "project_name" v1)
          (set_globals (insert "project_dir" v2) s1))
     = activation_calls b1 s1.
Proof.
  intros Hr1 Hr2 HA1 HB1 HA2 HB2 Hb1 Hb2.
  apply running_ready in Hr1. apply running_ready in Hr2.
  assert (widgets s1 = window A B) as Hw1 by eauto using ready_field_text.
  assert (widgets s2 = window A B) as Hw2 by eauto using ready_field_text.
  unfold activation_calls.
  rewrite (activation_window s1 A B b1), (activation_window s2 A B b2) by done.
  split_and!; try done.
  rewrite (activation_window _ A B b1); [done | | done |].
  - destruct Hr1 as [Hn Hd Hu Hb Hw]. split; simpl;
      rewrite ?lookup_insert_ne by done; done.
  - simpl. by rewrite !lookup_insert_ne.
Qed.


(** *** Whole runs *)

Lemma calls_snoc_click (tr : list event) (A B : string) :
  calls (tr ++ [EvGet 1; EvGet 3; EvCall A B]) = calls tr ++ [(A, B)].
Proof. unfold calls. by rewrite omap_app. Qed.

Lemma mainloop_closed (evs : list user_event) (s : state W) :
  window_open s = false -> mainloop evs s = s.
Proof. destruct evs; simpl; [done |]. by intros ->. Qed.

(** Typing: only the text of the entry typed into changes. *)
Lemma type_window (s : state W) (A B : string) (i : nat) (t : string) :
  widgets s = window A B ->
  widgets (dispatch (UType i t) s)
  = window (if i =? 1 then t else A) (if i =? 3 then t else B)
  /\ globals (dispatch (UType i t) s) = globals s
  /\ trace (dispatch (UType i t) s) = trace s
  /\ world (dispatch (UType i t) s) = world s
  /\ reported (dispatch (UType i t) s) = reported s
  /\ exit_status (dispatch (UType i t) s) = exit_status s.
Proof.
  intros Hw. simpl. rewrite Hw.
  destruct i as [| [| [| [| [| [| i]]]]]]; simpl; rewrite ?Hw; done.
Qed.

(** A click on the button, by the outcome of the creation call. *)
Lemma click_button_step (s : state W) (A B : string)
    (r : result value) (w1 : W) :
  ready s -> widgets s = window A B ->
  create_new_project A B (world s) = (r, w1) ->
  globals (dispatch (UClick 5) s) = globals s
  /\ widgets (dispatch (UClick 5) s) = window A B
  /\ calls (trace (dispatch (UClick 5) s)) = calls (trace s) ++ [(A, B)]
  /\ world (dispatch (UClick 5) s) = w1
  /\ reported (dispatch (UClick 5) s)
     = match r with
       | Return _ | Raise (SystemExit _) => reported s
       | Raise e => reported s ++ [e]
       end
  /\ exit_status (dispatch (UClick 5) s)
     = match r with
       | Raise (SystemExit n) => Some n
       | _ => None
       end.
Proof.
  intros Hr Hw Ec.
  rewrite (click_window s A B 5 Hr Hw (ready_button s Hr)), Ec. simpl.
  destruct r as [v | []]; simpl;
    rewrite ?calls_snoc_click, ?(ready_alive s Hr); done.
Qed.

Lemma close_step (s : state W) (A B : string) :
  widgets s = window A B ->
  window_open (dispatch UClose s) = false
  /\ widgets (dispatch UClose s) = destroy <$> window A B.
Proof.
  intros Hw. unfold window_open. simpl. rewrite Hw.
  by destruct (exit_status s).
Qed.

(** The main loop from a state that holds the script's window, against the
    functions on events. *)
Lemma mainloop_follows (evs : list user_event) :
  forall (s : state W) (A B : string),
    ready s -> widgets s = window A B ->
    calls (trace (mainloop evs s))
    = calls (trace s)
      ++ expected_calls A B (served create_new_project A B (world s) evs)
    /\ (world (mainloop evs s), reported (mainloop evs s),
        exit_status (mainloop evs s))
       = replay create_new_project
           (expected_calls A B (served create_new_project A B (world s) evs))
           (world s) (reported s)
    /\ globals (mainloop evs s) = globals s
    /\ widgets (mainloop evs s)
       = (let sv := served create_new_project A B (world s) evs in
          if closes sv
          then destroy <$> window (fst (typed A B sv)) (snd (typed A B sv))
          else window (fst (typed A B sv)) (snd (typed A B sv))).
Proof.
  induction evs as [| ev evs IH]; intros s A B Hr Hw.
  { simpl. by rewrite app_nil_r, (ready_alive s Hr). }
  simpl mainloop. rewrite (ready_open s Hr). destruct ev as [i t | i |].
  - destruct (type_window s A B i t Hw) as (Hw' & Hg & Htr & Hwo & Hrp & Hex).
    rewrite (ready_alive s Hr) in Hex.
    destruct (IH (dispatch (UType i t) s) _ _
                (ready_same_globals s _ _ _ Hr Hg Hw' Hex) Hw')
      as (Ic & Iw & Ig & Iws).
    simpl served. simpl expected_calls. simpl typed. unfold closes in *.
    simpl existsb.
    rewrite Ic, Iw, Ig, Iws, Htr, Hwo, Hrp, Hg. done.
  - destruct (decide (i = 5)) as [-> | Hi].
    + destruct (create_new_project A B (world s)) as [r w1] eqn:Ec.
      destruct (click_button_step s A B r w1 Hr Hw Ec)
        as (Hg & Hw' & Hc & Hwo & Hrp & Hex).
      simpl served. rewrite Ec.
      destruct r as [v | e]; [| destruct e as [x | x | x | n | x y]];
        cbv beta iota.
      5: { assert (window_open (dispatch (UClick 5) s) = false) as Ho.
           { unfold window_open. by rewrite Hex. }
           rewrite (mainloop_closed evs _ Ho).
           simpl expected_calls. simpl typed. unfold closes.
           simpl existsb. simpl replay. rewrite Ec.
           rewrite Hc, Hwo, Hrp, Hex, Hg, Hw'. done. }
      all: destruct (IH (dispatch (UClick 5) s) A B
                       (ready_same_globals s _ _ _ Hr Hg Hw' Hex) Hw')
             as (Ic & Iw & Ig & Iws).
      all: simpl expected_calls; simpl typed; unfold closes in *;
           simpl existsb; simpl replay; rewrite Ec.
      all: rewrite Ic, Iw, Ig, Iws, Hc, Hwo, Hrp, Hg, <- app_assoc; done.
    + rewrite (click_other s i Hr Hi).
      destruct (IH s A B Hr Hw) as (Ic & Iw & Ig & Iws).
      simpl served. simpl expected_calls. simpl typed. unfold closes in *.
      rewrite (proj2 (Nat.eqb_neq i 5) Hi). simpl expected_calls.
      simpl typed. simpl existsb.
      rewrite (proj2 (Nat.eqb_neq i 5) Hi). simpl.
      by rewrite Ic, Iw, Ig, Iws.
  - destruct (close_step s A B Hw) as [Ho Hw'].
    rewrite (mainloop_closed evs _ Ho). simpl.
    by rewrite app_nil_r, (ready_alive s Hr).
Qed.

(** The script loads, whatever the outside world is. *)
Lemma main_script_loads (w0 : W) :
  exists s0, exec main_script (initial w0) = (Return (), s0).
Proof. eexists. apply exec_main_script. Qed.

Lemma loaded_state (w0 : W) (s0 : state W) :
  exec main_script (initial w0) = (Return (), s0) ->
  ready s0
  /\ widgets s0 = window "" ""
  /\ trace s0 = [EvGet 1; EvGet 3]
  /\ world s0 = w0
  /\ reported s0 = []
  /\ globals s0 !! "project_name" = Some (VStr "")
  /\ globals s0 !! "project_dir" = Some (VStr "").
Proof.
  intros E. pose proof (ready_start w0 s0 E) as Hr.
  vm_compute in E. injection E as <-. split_and!; [done | reflexivity ..].
Qed.

(** X1. The calls made during a run are, in order, one for each click on the
    button that the main loop serves, each with the texts last typed into the
    two entries (empty if nothing was typed); typing, clicks on other widgets
    and loading the script make no call.  The loop serves the events up to the
    first close, or up to the first click whose call raises [SystemExit]. *)
Theorem run_calls_follow_clicks (evs : list user_event) (w0 : W) :
  calls (trace (run main_script evs w0))
  = expected_calls "" "" (served create_new_project "" "" w0 evs).
Proof.
  destruct (main_script_loads w0) as [s0 E].
  destruct (loaded_state w0 s0 E) as (Hr & Hw & Htr & Hwo & _).
  rewrite (run_returned main_script evs w0 s0 E). clear E.
  destruct (mainloop_follows evs s0 "" "" Hr Hw) as (Hc & _).
  rewrite Hc, Htr, Hwo. reflexivity.
Qed.

(** X2. The outside world after a run is the starting one with the creation
    calls applied in order.  What Tk reported is the exceptions those calls
    raised, [SystemExit] apart: a call that raises anything else does not stop
    the later ones, a call that raises [SystemExit] is the last one, is not
    reported, and gives the run its exit status. *)
Theorem run_world_is_replay (evs : list user_event) (w0 : W) :
  (world (run main_script evs w0), reported (run main_script evs w0),
   exit_status (run main_script evs w0))
  = replay create_new_project
      (expected_calls "" "" (served create_new_project "" "" w0 evs)) w0 [].
Proof.
  destruct (main_script_loads w0) as [s0 E].
  destruct (loaded_state w0 s0 E) as (Hr & Hw & _ & Hwo & Hrp & _).
  rewrite (run_returned main_script evs w0 s0 E). clear E.
  destruct (mainloop_follows evs s0 "" "" Hr Hw) as (_ & Iw & _).
  rewrite Iw, Hwo, Hrp. reflexivity.
Qed.

(** X3. After any run the widget table is the window the script built, with
    the texts last typed in the two entries; title, geometry, labels, button
    and packing never change, and a close destroys every widget.  The window
    is open exactly when the events served hold no close and no call raised
    [SystemExit]. *)
Theorem run_window (evs : list user_event) (w0 : W) :
  let sv := served create_new_project "" "" w0 evs in
  widgets (run main_script evs w0)
  = (if closes sv
     then destroy <$> window (fst (typed "" "" sv)) (snd (typed "" "" sv))
     else window (fst (typed "" "" sv)) (snd (typed "" "" sv)))
  /\ window_open (run main_script evs w0)
     = match snd (replay create_new_project (expected_calls "" "" sv) w0 []) with
       | Some _ => false
       | None => negb (closes sv)
       end.
Proof.
  intros sv. subst sv.
  destruct (main_script_loads w0) as [s0 E].
  destruct (loaded_state w0 s0 E) as (Hr & Hw & _ & Hwo & Hrp & _).
  rewrite (run_returned main_script evs w0 s0 E). clear E.
  destruct (mainloop_follows evs s0 "" "" Hr Hw) as (_ & Iw & _ & Iws).
  rewrite Hwo, Hrp in *. simpl in Iws. split; [exact Iws |].
  unfold window_open. rewrite Iws.
  destruct (replay create_new_project
              (expected_calls "" "" (served create_new_project "" "" w0 evs))
              w0 []) as [[w1 rp] ex].
  injection Iw as Hw1 Hr1 Hex1. rewrite Hex1.
  destruct ex; [reflexivity |].
  destruct (closes (served create_new_project "" "" w0 evs)); reflexivity.
Qed.

(** X4. No event rebinds a module global: after any run the globals are the
    ones bound at load time.  In particular [project_name] and [project_dir]
    still hold the empty strings read on lines 29-30, whatever was typed. *)
Theorem run_globals_frozen (evs : list user_event) (w0 : W) :
  globals (run main_script evs w0) = globals (run main_script [] w0)
  /\ globals (run main_script evs w0) !! "project_name" = Some (VStr "")
  /\ globals (run main_script evs w0) !! "project_dir" = Some (VStr "").
Proof.
  destruct (main_script_loads w0) as [s0 E].
  destruct (loaded_state w0 s0 E) as (Hr & Hw & _ & _ & _ & Hpn & Hpd).
  rewrite !(run_returned main_script _ w0 s0 E). clear E.
  destruct (mainloop_follows evs s0 "" "" Hr Hw) as (_ & _ & Ig & _).
  rewrite Ig. simpl. split_and!; [reflexivity | exact Hpn | exact Hpd].
Qed.

(** X5. Only the button has a command: while the program runs, a click on any
    other widget (the entries, the labels, the window, or no widget at all)
    leaves the state as it is. *)
Theorem click_elsewhere_does_nothing (s : state W) (b i : nat) :
  running s ->
  globals s !! "create_project_button" = Some (VWidget b) ->
  i <> b ->
  dispatch (UClick i) s = s.
Proof.
  intros Hrun Hb Hi. apply running_ready in Hrun.
  rewrite (ready_button s Hrun) in Hb. injection Hb as <-.
  by apply click_other.
Qed.

Lemma entry_get_globals (x : string) (s s1 : state W) (r : result string) :
  exec (entry_get x) s = (r, s1) -> globals s1 = globals s.
Proof.
  unfold entry_get. simpl.
  destruct (globals s !! x) as [[| | i | |] |]; simpl;
    try (by intros [= <- <-]).
  destruct (widgets s !! i) as [wd |]; [| by intros [= <- <-]].
  destruct (w_kind wd); try (by intros [= <- <-]).
  destruct (w_alive wd); by intros [= <- <-].
Qed.

Lemma entry_get_unbound (x : string) (s : state W) :
  globals s !! x = None -> exec (entry_get x) s = (Raise (NameError x), s).
Proof. intros Hx. unfold entry_get. simpl. by rewrite Hx. Qed.

(** X6. The handler looks its three globals up when it runs, in the order it
    uses them.  If [project_name_entry] is not bound it raises [NameError] for
    that name and nothing has happened; if [project_dir_entry] is not bound it
    raises after the name entry was read; if [utils] is not bound it raises
    after both reads.  In no case is [create_new_project] called. *)
Theorem handler_unbound_global (s : state W) :
  (globals s !! "project_name_entry" = None ->
   exec create_project s = (Raise (NameError "project_name_entry"), s))
  /\ (forall A s1,
        exec (entry_get "project_name_entry") s = (Return A, s1) ->
        globals s !! "project_dir_entry" = None ->
        exec create_project s = (Raise (NameError "project_dir_entry"), s1)
        /\ calls (trace s1) = calls (trace s) /\ world s1 = world s)
  /\ (forall A s1 B s2,
        exec (entry_get "project_name_entry") s = (Return A, s1) ->
        exec (entry_get "project_dir_entry") s1 = (Return B, s2) ->
        globals s !! "utils" = None ->
        exec create_project s = (Raise (NameError "utils"), s2)
        /\ calls (trace s2) = calls (trace s) /\ world s2 = world s).
Proof.
  split_and!.
  - intros Hx. unfold create_project.
    by rewrite exec_bind, (entry_get_unbound _ s Hx).
  - intros A s1 E1 Hx.
    destruct (entry_get_effect _ _ _ _ E1) as [Hwo Htr].
    rewrite <- (entry_get_globals _ _ _ _ E1) in Hx.
    unfold create_project.
    rewrite exec_bind, E1. cbv beta iota.
    rewrite exec_bind, (entry_get_unbound _ s1 Hx).
    split_and!; [done | | done].
    destruct Htr as [-> | [i ->]]; [done | apply calls_snoc_get].
  - intros A s1 B s2 E1 E2 Hx.
    destruct (entry_get_effect _ _ _ _ E1) as [Hwo1 Htr1].
    destruct (entry_get_effect _ _ _ _ E2) as [Hwo2 Htr2].
    rewrite <- (entry_get_globals _ _ _ _ E1),
            <- (entry_get_globals _ _ _ _ E2) in Hx.
    unfold create_project.
    rewrite exec_bind, E1. cbv beta iota.
    rewrite exec_bind, E2. cbv beta iota.
    rewrite exec_bind. unfold utils_create_new_project. simpl. rewrite Hx.
    split_and!; [done | | congruence].
    destruct Htr1 as [Ht1 | [i Ht1]], Htr2 as [Ht2 | [j Ht2]];
      rewrite Ht2, Ht1, ?calls_snoc_get; done.
Qed.

(** X7. In any state at all, one run of the handler makes no call or one
    call, never more; and when it makes one, the arguments are the two strings
    its two reads returned, name first. *)
Theorem handler_calls_at_most_once (s : state W) :
  calls (trace (snd (exec create_project s))) = calls (trace s)
  \/ exists A s1 B s2,
       exec (entry_get "project_name_entry") s = (Return A, s1)
       /\ exec (entry_get "project_dir_entry") s1 = (Return B, s2)
       /\ calls (trace (snd (exec create_project s)))
          = calls (trace s) ++ [(A, B)].
Proof.
  unfold create_project. rewrite exec_bind.
  destruct (exec (entry_get "project_name_entry") s) as [[A | e1] s1] eqn:E1;
    cbv beta iota.
  2: { left. destruct (entry_get_effect _ _ _ _ E1) as [_ [Ht | [i Ht]]];
         simpl; rewrite Ht, ?calls_snoc_get; done. }
  rewrite exec_bind.
  destruct (exec (entry_get "project_dir_entry") s1) as [[B | e2] s2] eqn:E2;
    cbv beta iota.
  all: assert (calls (trace s2) = calls (trace s)) as Hc.
  1, 3: destruct (entry_get_effect _ _ _ _ E1) as [_ [Ht1 | [i Ht1]]],
                 (entry_get_effect _ _ _ _ E2) as [_ [Ht2 | [j Ht2]]];
          rewrite Ht2, Ht1, ?calls_snoc_get; done.
  2: { by left. }
  rewrite exec_bind. unfold utils_create_new_project. simpl.
  destruct (globals s2 !! "utils") as [u |]; simpl; [| by left].
  destruct (decide (u = VModule M_sglm_utils)) as [-> | Hu].
  - right. exists A, s1, B, s2. split_and!; [done .. |].
    destruct (create_new_project A B (world s2)) as [[v | e] w1]; simpl;
      unfold calls in *; rewrite omap_app, Hc; done.
  - left. destruct u as [| | | [] |]; done.
Qed.

End Properties.

(** ** The value the collaborator returns *)

Lemma exec_entry_get_any {W : Type}
    (cnp1 cnp2 : string -> string -> W -> result value * W)
    (x : string) (s : state W) :
  exec cnp1 (entry_get x) s = exec cnp2 (entry_get x) s.
Proof. reflexivity. Qed.

(** C7. The handler does not look at what [create_new_project] returns.
    Take two collaborators that raise alike and act on the outside world
    alike, and differ at most in the value they return: the handler ends in
    the same state with the same outcome under both, so does the click, and
    when the handler returns it returns [None]. *)
Theorem return_value_discarded {W : Type}
    (cnp1 cnp2 : string -> string -> W -> result value * W) (s : state W) :
  (forall a b w, forget (cnp1 a b w) = forget (cnp2 a b w)) ->
  exec cnp1 create_project s = exec cnp2 create_project s
  /\ match fst (exec cnp1 create_project s) with
     | Return r => r = VNone
     | Raise _ => True
     end
  /\ forall i, dispatch cnp1 (UClick i) s = dispatch cnp2 (UClick i) s.
Proof.
  intros Hsame.
  assert (exec cnp1 create_project s = exec cnp2 create_project s
          /\ match fst (exec cnp1 create_project s) with
             | Return r => r = VNone
             | Raise _ => True
             end) as [Hexec Hnone].
  { unfold create_project. rewrite !exec_bind.
    rewrite (exec_entry_get_any cnp1 cnp2).
    destruct (exec cnp2 (entry_get "project_name_entry") s) as [[A | e1] s1];
      cbv beta iota; [| done].
    rewrite !exec_bind, (exec_entry_get_any cnp1 cnp2).
    destruct (exec cnp2 (entry_get "project_dir_entry") s1) as [[B | e2] s2];
      cbv beta iota; [| done].
    rewrite !exec_bind. unfold utils_create_new_project. simpl.
    destruct (globals s2 !! "utils") as [u |]; simpl; [| done].
    destruct (decide (u = VModule M_sglm_utils)) as [-> | Hu].
    - specialize (Hsame A B (world s2)).
      destruct (cnp1 A B (world s2)) as [[v1 | e1] w1],
               (cnp2 A B (world s2)) as [[v2 | e2] w2];
        simpl in *; by simplify_eq.
    - destruct u as [| | | [] |]; done. }
  split_and!; [done .. |].
  intros i. simpl. destruct (widgets s !! i) as [wd |]; [| done].
  destruct (w_kind wd); try done.
  destruct (w_command wd) as [[| | | | f] |]; try done.
  destruct (w_alive wd); [| done]. destruct f. unfold invoke. simpl fbody.
  by rewrite Hexec.
Qed.

(** ** The claims on concrete runs *)

Example filled_window_click :
  trace (dispatch noting (UClick 5) filled_window)
  = [EvGet 1; EvGet 3; EvGet 1; EvGet 3; EvCall "MyProject" "/tmp/projects"]
  /\ world (dispatch noting (UClick 5) filled_window)
     = [("MyProject", "/tmp/projects")].
Proof. split; vm_compute; reflexivity. Qed.

Example exiting_run :
  let s := run exiting main_script
             [UType 1 "MyProject"; UClick 5; UType 3 "/tmp"; UClick 5] [] in
  world s = [("MyProject", "")]
  /\ exit_status s = Some 3
  /\ reported s = []
  /\ window_open s = false
  /\ field_text "project_dir_entry" s = Some "".
Proof. split_and!; vm_compute; reflexivity. Qed.

Example refused_window_click :
  reported (dispatch refusing (UClick 5) refused_window)
  = [OtherError "FileExistsError" "MyProject"]
  /\ window_open (dispatch refusing (UClick 5) refused_window) = true.
Proof. split; vm_compute; reflexivity. Qed.

Lemma click_calls_once_witness :
  activation_calls noting 5 filled_window = [("MyProject", "/tmp/projects")].
Proof.
  apply (click_calls_once noting filled_window "MyProject" "/tmp/projects" 5).
  - apply running_run. vm_compute. reflexivity.
  - vm_compute. reflexivity.
  - vm_compute. reflexivity.
  - vm_compute. reflexivity.
Defined.

Lemma click_empty_fields_witness :
  activation_calls noting 5 fresh_window = [("", "")]
  /\ world (dispatch noting (UClick 5) fresh_window)
     = snd (noting "" "" (world fresh_window)).
Proof.
  apply (click_empty_fields noting fresh_window 5).
  - apply running_run. vm_compute. reflexivity.
  - vm_compute. reflexivity.
  - vm_compute. reflexivity.
  - vm_compute. reflexivity.
Defined.

Lemma handler_raises_iff_witness :
  fst (exec refusing create_project refused_window)
  = Raise (OtherError "FileExistsError" "MyProject")
  /\ reported (invoke refusing Fcreate_project refused_window)
     = reported refused_window ++ [OtherError "FileExistsError" "MyProject"].
Proof.
  destruct (proj2 (handler_raises_iff refusing refused_window
                     (OtherError "FileExistsError" "MyProject"))
              "MyProject" "/tmp/projects") as [Hiff Hreport].
  - apply running_run. vm_compute. reflexivity.
  - vm_compute. reflexivity.
  - vm_compute. reflexivity.
  - split.
    + apply Hiff. vm_compute. reflexivity.
    + apply Hreport. vm_compute. reflexivity.
Defined.

Lemma same_fields_same_arguments_witness :
  activation_calls noting 5 filled_window = [("MyProject", "/tmp/projects")]
  /\ activation_calls noting 5 refilled_window
     = activation_calls noting 5 filled_window
  /\ activation_calls noting 5
       (set_globals (insert "project_name" (VStr "Stale"))
          (set_globals (insert "project_dir" VNone) filled_window))
     = activation_calls noting 5 filled_window.
Proof.
  apply (same_fields_same_arguments noting filled_window refilled_window
           "MyProject" "/tmp/projects" 5 5 (VStr "Stale") VNone).
  - apply running_run. vm_compute. reflexivity.
  - apply running_run. vm_compute. reflexivity.
  - vm_compute. reflexivity.
  - vm_compute. reflexivity.
  - vm_compute. reflexivity.
  - vm_compute. reflexivity.
  - vm_compute. reflexivity.
  - vm_compute. reflexivity.
Defined.

Lemma return_value_discarded_witness :
  exec noting create_project filled_window
  = exec returning_path create_project filled_window
  /\ match fst (exec noting create_project filled_window) with
     | Return r => r = VNone
     | Raise _ => True
     end
  /\ forall i, dispatch noting (UClick i) filled_window
               = dispatch returning_path (UClick i) filled_window.
Proof.
  apply (return_value_discarded noting returning_path filled_window).
  intros a b w. reflexivity.
Defined.

Lemma click_keeps_window_open_witness :
  (window_open (dispatch refusing (UClick 5) refused_window) = true
   /\ running refusing (dispatch refusing (UClick 5) refused_window))
  /\ (window_open (dispatch exiting (UClick 5) exiting_window) = false
      /\ exit_status (dispatch exiting (UClick 5) exiting_window) = Some 3
      /\ reported (dispatch exiting (UClick 5) exiting_window)
         = reported exiting_window).
Proof.
  split.
  - destruct (click_keeps_window_open refusing refused_window
                "MyProject" "/tmp/projects" 5 5)
      as (_ & _ & _ & _ & Hopen & _).
    + apply running_run. vm_compute. reflexivity.
    + vm_compute. reflexivity.
    + vm_compute. reflexivity.
    + vm_compute. reflexivity.
    + apply Hopen. intros n. vm_compute. discriminate.
  - destruct (click_keeps_window_open exiting exiting_window
                "MyProject" "/tmp/projects" 5 5)
      as (_ & _ & _ & _ & _ & Hexit).
    + apply running_run. vm_compute. reflexivity.
    + vm_compute. reflexivity.
    + vm_compute. reflexivity.
    + vm_compute. reflexivity.
    + apply (Hexit 3). vm_compute. reflexivity.
Defined.

(** C8 as first stated does not hold: a click whose creation call raises
    [SystemExit] ends the program. *)
Lemma click_can_end_program :
  ~ (forall (cnp : string -> string -> list (string * string)
                   -> result value * list (string * string))
            (s : state (list (string * string))) (i : nat),
        running cnp s -> window_open (dispatch cnp (UClick i) s) = true).
Proof.
  intros H. specialize (H exiting exiting_window 5).
  assert (running exiting exiting_window) as Hr.
  { apply running_run. vm_compute. reflexivity. }
  specialize (H Hr). vm_compute in H. discriminate.
Qed.

Lemma failed_read_stops_handler_witness :
  exec noting create_project name_entry_gone
  = (Raise (invalid_command ".!entry"), log (EvGet 1) name_entry_gone)
  /\ exec noting create_project dir_entry_gone
     = (Raise (invalid_command ".!entry2"),
        log (EvGet 3) (log (EvGet 1) dir_entry_gone))
  /\ calls (trace (snd (exec noting create_project dir_entry_gone)))
     = calls (trace dir_entry_gone).
Proof.
  split; [| split].
  - apply (proj1 (failed_read_stops_handler noting name_entry_gone)).
    vm_compute. reflexivity.
  - eapply (proj2 (failed_read_stops_handler noting dir_entry_gone)
              "MyProject" (log (EvGet 1) dir_entry_gone)).
    + vm_compute. reflexivity.
    + vm_compute. reflexivity.
  - destruct (proj2 (failed_read_stops_handler noting dir_entry_gone)
                "MyProject" (log (EvGet 1) dir_entry_gone)
                (invalid_command ".!entry2")
                (log (EvGet 3) (log (EvGet 1) dir_entry_gone)))
      as (E & Hcalls & _).
    + vm_compute. reflexivity.
    + vm_compute. reflexivity.
    + rewrite E. exact Hcalls.
Defined.

Lemma click_reads_then_calls_witness :
  activation_events noting 5 filled_window
  = [EvGet 1; EvGet 3; EvCall "MyProject" "/tmp/projects"]
  /\ 1 <> 3.
Proof.
  apply (click_reads_then_calls noting filled_window
           "MyProject" "/tmp/projects" 1 3 5).
  - apply running_run. vm_compute. reflexivity.
  - vm_compute. reflexivity.
  - vm_compute. reflexivity.
  - vm_compute. reflexivity.
  - vm_compute. reflexivity.
  - vm_compute. reflexivity.
Defined.

Lemma click_elsewhere_does_nothing_witness :
  dispatch noting (UClick 2) filled_window = filled_window.
Proof.
  apply (click_elsewhere_does_nothing noting filled_window 5 2).
  - apply running_run. vm_compute. reflexivity.
  - vm_compute. reflexivity.
  - lia.
Defined.

Lemma handler_unbound_global_witness :
  exec noting create_project before_widgets
  = (Raise (NameError "project_name_entry"), before_widgets)
  /\ exec noting create_project dir_entry_unbound
     = (Raise (NameError "project_dir_entry"), log (EvGet 1) dir_entry_unbound)
  /\ exec noting create_project utils_unbound
     = (Raise (NameError "utils"), log (EvGet 3) (log (EvGet 1) utils_unbound)).
Proof.
  split; [| split].
  - apply (proj1 (handler_unbound_global noting before_widgets)).
    vm_compute. reflexivity.
  - apply (proj1 (proj2 (handler_unbound_global noting dir_entry_unbound))
             "MyProject" (log (EvGet 1) dir_entry_unbound)).
    + vm_compute. reflexivity.
    + vm_compute. reflexivity.
  - apply (proj2 (proj2 (handler_unbound_global noting utils_unbound))
             "MyProject" (log (EvGet 1) utils_unbound) "/tmp/projects"
             (log (EvGet 3) (log (EvGet 1) utils_unbound))).
    + vm_compute. reflexivity.
    + vm_compute. reflexivity.
    + vm_compute. reflexivity.
Defined.
